(** * The qubes connection plugin (ansible_module/conns/qubes.py)

    A shallow embedding of the [Connection] class: the plugin object
    (target VM name, effective user, connected flag), the local file
    system it reads and writes, and the child processes it starts through
    [subprocess.Popen].  The dispatcher binary [qvm-run] is outside the
    program; it is a parameter of the development (class [Host]).

    Python [str] values are modelled by [string] (the text in its UTF-8
    encoding, one character per byte), [bytes] values by [list byte], so
    that [to_bytes] is the byte-wise conversion.  The byte 10 never occurs
    inside a multi-byte UTF-8 sequence, hence [endswith] on the encoded text
    agrees with Python's test on code points. *)

From Stdlib Require Import ZArith String Ascii List.
From Stdlib.Strings Require Import Byte.
From stdpp Require Import base option list strings gmap.
Import ListNotations.

Local Open Scope Z_scope.

(** ** Values *)

Abbreviation bytes := (list byte).

#[export] Instance byte_eq_decision : EqDecision byte := Byte.byte_eq_dec.

(** The line feed written ["\n"] in the source. *)
Definition LF : string := String "010"%char EmptyString.

(** The double quote character of the [cat > "..."] command. *)
Definition DQUOTE : string := String "034"%char EmptyString.

(** [to_bytes(s, errors='surrogate_or_strict')]. *)
Definition to_bytes (s : string) : bytes := list_byte_of_string s.

(** [os.fsencode], which [subprocess] applies to the [str] arguments of a
    command line. *)
Definition fsencode (s : string) : bytes := list_byte_of_string s.

(** [s.endswith(suffix)]: [suffix] is [s] itself or a suffix of its tail. *)
Fixpoint endswith (s suffix : string) : bool :=
  String.eqb s suffix
  || match s with
     | EmptyString => false
     | String _ t => endswith t suffix
     end.

(** Truth value of a Python [str]: the empty text is false. *)
Definition truthy (s : string) : bool :=
  match s with EmptyString => false | String _ _ => true end.

(** [list.extend] and [list.append]. *)
Definition extend {A} (l xs : list A) : list A := l ++ xs.
Definition append {A} (l : list A) (x : A) : list A := l ++ [x].

(** ** The plugin object *)

(** The part of the play context that [__init__] reads; an unset
    [remote_user] is [None]. *)
Record PlayContext := mkPlayContext {
  remote_addr : string;
  remote_user : option string
}.

Record Connection := mkConnection {
  _remote_vmname : string;
  _connected : bool;
  user : string
}.

Definition transport : string := "qubes".
Definition has_pipelining : bool := true.

Definition __init__ (play_context : PlayContext) : Connection :=
  let user0 := "user"%string in
  {| _remote_vmname := remote_addr play_context;
     _connected := false;
     user := match remote_user play_context with
             | Some u => if truthy u then u else user0
             | None => user0
             end |}.

(** ** Child processes and files *)

(** What a terminated child leaves behind: its exit status and the bytes it
    wrote on its output and error streams. *)
Record Completed := mkCompleted {
  returncode : Z;
  stdout : bytes;
  stderr : bytes
}.

(** An open file object; only its path matters here. *)
Inductive fileobj := FileObj (path : string).

(** The [stdin=], [stdout=] and [stderr=] arguments of [Popen]: a fresh
    pipe, the parent's own stream (the default), or an open file. *)
Inductive Redirect :=
| PIPE
| INHERIT
| TOFILE (f : fileobj).

(** A [Popen] object: its argument vector, its three streams and the bytes
    already written to its input pipe. *)
Record Popen_obj := mkPopen {
  p_args : list bytes;
  p_stdin : Redirect;
  p_stdout : Redirect;
  p_stderr : Redirect;
  p_written : bytes
}.

(** One child process as observed from outside: argument vector, the whole
    byte stream it received on its input pipe ([None] when its input was
    not a pipe), where its output and error streams went, and how it
    ended. *)
Record Invocation := mkInvocation {
  inv_args : list bytes;
  inv_stdin : option bytes;
  inv_stdout : Redirect;
  inv_stderr : Redirect;
  inv_result : Completed
}.

(** The host.  [run_child]: how a child started with a given argument
    vector and input stream behaves, possibly depending on the children run
    before it; the program named by the vector is taken to be installed, so
    that starting a child always succeeds.  [can_create]: whether
    [open(path, "wb")] succeeds for a path, that is, its directory exists
    and may be written and the path is not itself a directory. *)
Class Host := {
  run_child : list Invocation → list bytes → option bytes → Completed;
  can_create : string → bool
}.

(** The state the methods act on: the plugin object, the local files
    (path to content) and the children run so far, oldest first. *)
Record State := mkState {
  self : Connection;
  fs : gmap string bytes;
  spawned : list Invocation
}.

(** [OSError] stands for whatever [open(path, "wb")] raises when the file
    cannot be created. *)
Inductive exn :=
| FileNotFoundError (path : string)
| OSError (path : string)
| RuntimeError (msg : string).

Inductive result (A : Type) :=
| Ok (a : A)
| Raise (e : exn).
Arguments Ok {A} a.
Arguments Raise {A} e.

(** Computations that read and update the state and may raise; what was
    done before a [Raise] stays done. *)
Definition M (A : Type) : Type := State → result A * State.

#[export] Instance M_ret : MRet M := λ A a s, (Ok a, s).
#[export] Instance M_bind : MBind M := λ A B f m s,
  match m s with
  | (Ok a, s') => f a s'
  | (Raise e, s') => (Raise e, s')
  end.

Definition raise {A} (e : exn) : M A := λ s, (Raise e, s).
Definition get_self : M Connection := λ s, (Ok (self s), s).
Definition set_connected (b : bool) : M unit := λ s,
  (Ok tt,
   {| self := {| _remote_vmname := _remote_vmname (self s);
                 _connected := b;
                 user := user (self s) |};
      fs := fs s;
      spawned := spawned s |}).

(** [open(path, "rb")]: fails on a path that does not exist. *)
Definition open_rb (path : string) : M fileobj := λ s,
  match fs s !! path with
  | Some _ => (Ok (FileObj path), s)
  | None => (Raise (FileNotFoundError path), s)
  end.

(** [fobj.read()] on a file opened for reading. *)
Definition read (f : fileobj) : M bytes := λ s,
  let 'FileObj path := f in (Ok (default [] (fs s !! path)), s).

(** [open(path, "wb")]: creates the file, or truncates it; raises, and
    changes nothing, when the host does not let the file be created. *)
Definition open_wb `{Host} (path : string) : M fileobj := λ s,
  if can_create path
  then (Ok (FileObj path),
        {| self := self s; fs := <[path := []]> (fs s);
           spawned := spawned s |})
  else (Raise (OSError path), s).

(** Bytes a child writes to a file it was given as a stream land after the
    file's current content. *)
Definition write_through (r : Redirect) (data : bytes)
    (files : gmap string bytes) : gmap string bytes :=
  match r with
  | TOFILE (FileObj path) => <[path := default [] (files !! path) ++ data]> files
  | _ => files
  end.

(** What [communicate] returns for a stream: its bytes if it was a pipe. *)
Definition captured (r : Redirect) (data : bytes) : option bytes :=
  match r with PIPE => Some data | _ => None end.

(** [subprocess.Popen(args, shell=False, stdin=, stdout=, stderr=)]. *)
Definition Popen (args : list bytes) (stdin_ stdout_ stderr_ : Redirect)
    : M Popen_obj :=
  mret {| p_args := args; p_stdin := stdin_; p_stdout := stdout_;
          p_stderr := stderr_; p_written := [] |}.

(** [p.stdin.write(data)]. *)
Definition stdin_write (p : Popen_obj) (data : bytes) : Popen_obj :=
  {| p_args := p_args p; p_stdin := p_stdin p; p_stdout := p_stdout p;
     p_stderr := p_stderr p; p_written := p_written p ++ data |}.

(** [p.communicate(input=...)] followed by reading [p.returncode]: the
    input, if any, goes to the input pipe after what was written before,
    the pipe is closed, the child runs to its end.  Returns the exit status
    and the captured output and error bytes. *)
Definition communicate `{Host} (p : Popen_obj) (input : option bytes)
    : M (Z * option bytes * option bytes) := λ s,
  let fed := match p_stdin p with
             | PIPE => Some (p_written p ++ default [] input)
             | _ => None
             end in
  let c := run_child (spawned s) (p_args p) fed in
  (Ok (returncode c, captured (p_stdout p) (stdout c),
       captured (p_stderr p) (stderr c)),
   {| self := self s;
      fs := write_through (p_stderr p) (stderr c)
              (write_through (p_stdout p) (stdout c) (fs s));
      spawned := spawned s ++
        [{| inv_args := p_args p; inv_stdin := fed;
            inv_stdout := p_stdout p; inv_stderr := p_stderr p;
            inv_result := c |}] |}).

(** ** The methods of [Connection] *)

Section Methods.
Context `{Host}.

(** [_qubes(cmd, in_data, shell)]: run qvm-run, write the command and the
    data to its input, return exit status, output and error output. *)
Definition _qubes (cmd : string) (in_data : option bytes) (shell : string)
    : M (Z * option bytes * option bytes) :=
  let cmd := if negb (endswith cmd LF) then cmd +:+ LF else cmd in
  conn ← get_self;
  let local_cmd : list string := [] in
  let local_cmd := extend local_cmd ["qvm-run"; "--pass-io"; "--service"]%string in
  let local_cmd :=
    if negb (String.eqb (user conn) "user")
    then extend local_cmd ["-u"%string; user conn]
    else local_cmd in
  let local_cmd := append local_cmd (_remote_vmname conn) in
  let local_cmd := append local_cmd shell in
  let local_cmd := map to_bytes local_cmd in
  p ← Popen local_cmd PIPE PIPE PIPE;
  let p := stdin_write p (to_bytes cmd) in
  communicate p in_data.

(** The base class [ConnectionBase] comes from [ansible.plugins.connection].
    Its [_connect] and [close] are abstract methods with an empty body. *)
Definition ConnectionBase_connect : M unit := mret tt.
Definition ConnectionBase_close : M unit := mret tt.

(** [_connect]: no persistent connection is maintained. *)
Definition _connect : M unit :=
  ConnectionBase_connect;;
  set_connected true.

(** The [ensure_connect] decorator of [ansible.plugins.connection]:
    [if not self._connected: self._connect()], then the wrapped method. *)
Definition ensure_connect {A} (func : M A) : M A :=
  conn ← get_self;
  (if negb (_connected conn) then _connect else mret tt);;
  func.

(** [exec_command], [put_file] and [fetch_file] of [ConnectionBase] are
    abstract methods with an empty body, each under [ensure_connect]. *)
Definition ConnectionBase_exec_command (cmd : string)
    (in_data : option bytes) (sudoable : bool) : M unit :=
  ensure_connect (mret tt).
Definition ConnectionBase_put_file (in_path out_path : string) : M unit :=
  ensure_connect (mret tt).
Definition ConnectionBase_fetch_file (in_path out_path : string) : M unit :=
  ensure_connect (mret tt).

Definition exec_command (cmd : string) (in_data : option bytes)
    (sudoable : bool) : M (Z * option bytes * option bytes) :=
  ensure_connect (
    ConnectionBase_exec_command cmd in_data sudoable;;
    '(rc, stdout_, stderr_) ← _qubes cmd None "qubes.VMShell";
    mret (rc, stdout_, stderr_)).

Definition put_file (in_path out_path : string) : M unit :=
  ConnectionBase_put_file in_path out_path;;
  fobj ← open_rb in_path;
  source_data ← read fobj;
  '(retcode, _, _) ← _qubes ("cat > " +:+ DQUOTE +:+ out_path +:+ DQUOTE +:+ LF)
                            (Some source_data) "qubes.VMRootShell";
  '(retcode, _, _) ←
    (if Z.eqb retcode 127
     then _qubes ("cat > " +:+ DQUOTE +:+ out_path +:+ DQUOTE +:+ LF)
                 (Some source_data) "qubes.VMShell"
     else mret (retcode, None, None));
  if negb (Z.eqb retcode 0)
  then raise (RuntimeError ("Failed to put_file to " +:+ out_path))
  else mret tt.

Definition fetch_file (in_path out_path : string) : M unit :=
  ConnectionBase_fetch_file in_path out_path;;
  conn ← get_self;
  let cmd_args_list :=
    ["qvm-run"; "--pass-io"; _remote_vmname conn; "cat " +:+ in_path]%string in
  fobj ← open_wb out_path;
  p ← Popen (map fsencode cmd_args_list) INHERIT (TOFILE fobj) INHERIT;
  '(rc, _, _) ← communicate p None;
  if negb (Z.eqb rc 0)
  then raise (RuntimeError ("Failed to fetch file to " +:+ out_path))
  else mret tt.

Definition close : M unit :=
  ConnectionBase_close;;
  set_connected false.

End Methods.

(** ** Closed forms used in the statements *)

(** The state after one more child has run. *)
Definition ran (inv : Invocation) (s : State) : State :=
  {| self := self s; fs := fs s; spawned := spawned s ++ [inv] |}.

(** The same state with another effective user. *)
Definition with_user (u : string) (s : State) : State :=
  {| self := {| _remote_vmname := _remote_vmname (self s);
                _connected := _connected (self s);
                user := u |};
     fs := fs s;
     spawned := spawned s |}.

(** The text [_qubes] sends for [cmd]. *)
Definition framed (cmd : string) : string :=
  if endswith cmd LF then cmd else cmd +:+ LF.

(** The argument vector [_qubes] builds for a connection and a service. *)
Definition qubes_argv (conn : Connection) (shell : string) : list bytes :=
  map to_bytes
    (["qvm-run"; "--pass-io"; "--service"]%string
     ++ (if String.eqb (user conn) "user" then [] else ["-u"%string; user conn])
     ++ [_remote_vmname conn; shell]).

(** The child [_qubes] runs in state [s]. *)
Definition qubes_child `{Host} (s : State) (cmd : string)
    (in_data : option bytes) (shell : string) : Invocation :=
  let fed := Some (to_bytes (framed cmd) ++ default [] in_data) in
  {| inv_args := qubes_argv (self s) shell;
     inv_stdin := fed;
     inv_stdout := PIPE;
     inv_stderr := PIPE;
     inv_result := run_child (spawned s) (qubes_argv (self s) shell) fed |}.

(** The command text of [put_file]. *)
Definition put_cmd (out_path : string) : string :=
  "cat > " +:+ DQUOTE +:+ out_path +:+ DQUOTE +:+ LF.

(** An operation is refused in a state when it raises without having done
    anything: the state is as before. *)
Definition refused {A} (op : M A) (s : State) : Prop :=
  ∃ e, op s = (Raise e, s).

(** ** A sample host

    A dispatcher whose target VM lacks the privileged service: a child
    started for [qubes.VMRootShell] exits with 127, any other child exits
    with 0 after writing a fixed line. *)

Definition sample_output : bytes := to_bytes ("box" +:+ LF).

Definition sample_host : Host :=
  {| run_child := λ _ args _,
       if bool_decide (last args = Some (to_bytes "qubes.VMRootShell"))
       then {| returncode := 127; stdout := []; stderr := [] |}
       else {| returncode := 0; stdout := sample_output; stderr := [] |};
     can_create := λ _, true |}.

(** A host on which every child exits with 1 after writing two bytes. *)
Definition failing_host : Host :=
  {| run_child := λ _ _ _,
       {| returncode := 1; stdout := to_bytes "bo"; stderr := [] |};
     can_create := λ _, true |}.

(** The sample host with a local file system on which no file can be
    created. *)
Definition readonly_host : Host :=
  {| run_child := run_child (Host := sample_host);
     can_create := λ _, false |}.

Definition sample_data : bytes := to_bytes "payload".

Definition sample_state : State :=
  {| self := __init__ {| remote_addr := "work"; remote_user := Some "root"%string |};
     fs := {[ "/tmp/a"%string := sample_data ]};
     spawned := [] |}.

(** ** Text and bytes *)

Lemma endswith_refl (s : string) : endswith s s = true.
Proof. destruct s; cbn [endswith]; rewrite String.eqb_refl; reflexivity. Qed.

Lemma endswith_spec (s suffix : string) :
  endswith s suffix = true ↔ ∃ t, s = t +:+ suffix.
Proof.
  split.
  - induction s as [|c s IH]; cbn [endswith]; intros E.
    + rewrite orb_false_r in E. apply String.eqb_eq in E. subst.
      exists EmptyString. reflexivity.
    + apply orb_true_iff in E as [E|E].
      * apply String.eqb_eq in E. exists EmptyString. exact E.
      * destruct (IH E) as [t ->]. exists (String c t). reflexivity.
  - intros [t ->]. induction t as [|c t IH].
    + apply endswith_refl.
    + change (String c t +:+ suffix) with (String c (t +:+ suffix)).
      cbn [endswith]. rewrite IH. apply orb_true_r.
Qed.

Lemma string_app_assoc (a b c : string) :
  (a +:+ b) +:+ c = a +:+ (b +:+ c).
Proof.
  induction a as [|x a IH]; [reflexivity|].
  change (String x (a +:+ b +:+ c)) with (String x a +:+ b +:+ c) in *.
  change ((String x a +:+ b) +:+ c) with (String x ((a +:+ b) +:+ c)).
  rewrite IH. reflexivity.
Qed.

Lemma to_bytes_app (a b : string) :
  to_bytes (a +:+ b) = to_bytes a ++ to_bytes b.
Proof.
  unfold to_bytes. induction a as [|c a IH]; [reflexivity|].
  change (String c a +:+ b) with (String c (a +:+ b)).
  unfold list_byte_of_string in *.
  cbn [list_ascii_of_string List.map]. rewrite IH. reflexivity.
Qed.

Lemma to_bytes_LF : to_bytes LF = [x0a].
Proof. reflexivity. Qed.

Example put_cmd_bytes :
  to_bytes (put_cmd "/a") = [x63; x61; x74; x20; x3e; x20; x22; x2f; x61; x22; x0a].
Proof. reflexivity. Qed.

Example endswith_examples :
  endswith ("ls" +:+ LF) LF = true ∧ endswith "ls" LF = false
  ∧ endswith "" LF = false ∧ endswith (LF +:+ "ls") LF = false.
Proof. repeat split; reflexivity. Qed.

Lemma to_bytes_framed (cmd : string) :
  ((∃ t, cmd = t +:+ LF) ∧ to_bytes (framed cmd) = to_bytes cmd)
  ∨ ((¬ ∃ t, cmd = t +:+ LF) ∧ to_bytes (framed cmd) = to_bytes cmd ++ [x0a]).
Proof.
  unfold framed. destruct (endswith cmd LF) eqn:E.
  - left. split; [apply endswith_spec; exact E | reflexivity].
  - right. split.
    + intros Hex. apply endswith_spec in Hex. congruence.
    + rewrite to_bytes_app, to_bytes_LF. reflexivity.
Qed.

(** ** The connected flag under [ensure_connect] *)

Lemma connect_connected (s : State) :
  _connected (self s) = true → (_connect s).2 = s.
Proof.
  destruct s as [[vm flag u] files children]. cbn. intros ->. reflexivity.
Qed.

Lemma ensure_connect_run {A} (func : M A) (s : State) :
  ensure_connect func s = func (_connect s).2.
Proof.
  unfold ensure_connect, mbind, M_bind, get_self. cbn beta iota.
  destruct (_connected (self s)) eqn:E; cbn [negb].
  - rewrite (connect_connected s E). reflexivity.
  - reflexivity.
Qed.

Lemma ConnectionBase_put_file_run (in_path out_path : string) (s : State) :
  ConnectionBase_put_file in_path out_path s = (Ok tt, (_connect s).2).
Proof. unfold ConnectionBase_put_file. apply ensure_connect_run. Qed.

Lemma ConnectionBase_fetch_file_run (in_path out_path : string) (s : State) :
  ConnectionBase_fetch_file in_path out_path s = (Ok tt, (_connect s).2).
Proof. unfold ConnectionBase_fetch_file. apply ensure_connect_run. Qed.

Lemma ConnectionBase_exec_command_run (cmd : string) (in_data : option bytes)
    (sudoable : bool) (s : State) :
  ConnectionBase_exec_command cmd in_data sudoable s = (Ok tt, (_connect s).2).
Proof. unfold ConnectionBase_exec_command. apply ensure_connect_run. Qed.

(** ** What one call of [_qubes] does *)

Section Dispatch.
Context `{Host}.

Lemma _qubes_run (s : State) (cmd : string) (in_data : option bytes)
    (shell : string) :
  _qubes cmd in_data shell s =
  (let c := qubes_child s cmd in_data shell in
   (Ok (returncode (inv_result c), Some (stdout (inv_result c)),
        Some (stderr (inv_result c))),
    ran c s)).
Proof.
  unfold _qubes, qubes_child, qubes_argv, framed, ran, extend, append.
  unfold mbind, M_bind, get_self, Popen, mret, M_ret, communicate, stdin_write.
  simpl.
  destruct (endswith cmd LF); destruct (String.eqb (user (self s)) "user");
    reflexivity.
Qed.

Lemma last_qubes_argv (conn : Connection) (shell : string) :
  last (qubes_argv conn shell) = Some (to_bytes shell).
Proof.
  unfold qubes_argv.
  replace ([_remote_vmname conn; shell]) with ([_remote_vmname conn] ++ [shell])
    by reflexivity.
  rewrite !app_assoc, map_app. apply last_snoc.
Qed.

(** C2: the input of the child that [_qubes] starts begins with the
    command text; one line feed is added after it when the text does not end
    in one, none when it does; the optional payload follows. *)
Theorem qubes_stdin_newline_terminated (s : State) (cmd : string)
    (in_data : option bytes) (shell : string) :
  ∃ inv,
    spawned (_qubes cmd in_data shell s).2 = spawned s ++ [inv]
    ∧ (((∃ t, cmd = t +:+ LF)
        ∧ inv_stdin inv = Some (to_bytes cmd ++ default [] in_data))
       ∨ ((¬ ∃ t, cmd = t +:+ LF)
          ∧ inv_stdin inv = Some (to_bytes cmd ++ [x0a] ++ default [] in_data))).
Proof.
  rewrite _qubes_run. eexists. split; [reflexivity|]. simpl.
  destruct (to_bytes_framed cmd) as [[Hnl ->]|[Hnl ->]]; [left|right];
    (split; [exact Hnl|]); [reflexivity|].
  rewrite <- app_assoc. reflexivity.
Qed.

(** C3: the argument vector of the child that [_qubes] starts is the base
    flags, then the pair [-u], user when the user is not the default
    [user] (and nothing when it is), then the target name, then the service
    name. *)
Theorem qubes_argument_vector (s : State) (cmd : string)
    (in_data : option bytes) (shell : string) :
  ∃ inv,
    spawned (_qubes cmd in_data shell s).2 = spawned s ++ [inv]
    ∧ ((user (self s) = "user"%string
        ∧ inv_args inv =
          map to_bytes ["qvm-run"; "--pass-io"; "--service";
                        _remote_vmname (self s); shell]%string)
       ∨ (user (self s) ≠ "user"%string
          ∧ inv_args inv =
            map to_bytes ["qvm-run"; "--pass-io"; "--service";
                          "-u"; user (self s);
                          _remote_vmname (self s); shell]%string)).
Proof.
  rewrite _qubes_run. eexists. split; [reflexivity|]. simpl.
  unfold qubes_argv.
  destruct (String.eqb_spec (user (self s)) "user") as [E|E];
    [left|right]; (split; [exact E|reflexivity]).
Qed.

End Dispatch.

(** ** Pushing a file *)

Section Put.
Context `{Host}.

Lemma framed_put_cmd (out_path : string) :
  to_bytes (framed (put_cmd out_path)) =
  to_bytes ("cat > " +:+ DQUOTE +:+ out_path +:+ DQUOTE) ++ [x0a].
Proof.
  assert (E : put_cmd out_path =
              ("cat > " +:+ DQUOTE +:+ out_path +:+ DQUOTE) +:+ LF).
  { unfold put_cmd. rewrite !string_app_assoc. reflexivity. }
  unfold framed.
  replace (endswith (put_cmd out_path) LF) with true.
  - rewrite E, to_bytes_app, to_bytes_LF. reflexivity.
  - symmetry. apply endswith_spec. eexists. exact E.
Qed.

Lemma put_child_stdin (s : State) (out_path shell : string) (data : bytes) :
  inv_stdin (qubes_child s (put_cmd out_path) (Some data) shell) =
  Some (to_bytes ("cat > " +:+ DQUOTE +:+ out_path +:+ DQUOTE) ++ [x0a] ++ data).
Proof.
  unfold qubes_child. cbn [inv_stdin]. rewrite framed_put_cmd.
  rewrite <- app_assoc. reflexivity.
Qed.

Lemma put_file_missing (s : State) (in_path out_path : string) :
  fs s !! in_path = None →
  put_file in_path out_path s =
  (Raise (FileNotFoundError in_path), (_connect s).2).
Proof.
  intros Hfs. unfold put_file, mbind, M_bind at 1.
  rewrite ConnectionBase_put_file_run. cbn beta iota.
  assert (Hfs0 : fs (_connect s).2 !! in_path = None) by exact Hfs.
  unfold M_bind, open_rb. rewrite Hfs0. reflexivity.
Qed.

Lemma put_file_run0 (s : State) (in_path out_path : string) (data : bytes) :
  fs s !! in_path = Some data →
  put_file in_path out_path s =
  (let s0 := (_connect s).2 in
   let c1 := qubes_child s0 (put_cmd out_path) (Some data) "qubes.VMRootShell" in
   if returncode (inv_result c1) =? 127
   then
     let c2 := qubes_child (ran c1 s0) (put_cmd out_path) (Some data)
                 "qubes.VMShell" in
     (if returncode (inv_result c2) =? 0
      then Ok tt
      else Raise (RuntimeError ("Failed to put_file to " +:+ out_path)),
      ran c2 (ran c1 s0))
   else
     (if returncode (inv_result c1) =? 0
      then Ok tt
      else Raise (RuntimeError ("Failed to put_file to " +:+ out_path)),
      ran c1 s0)).
Proof.
  intros Hfs. unfold put_file.
  change ("cat > " +:+ DQUOTE +:+ out_path +:+ DQUOTE +:+ LF)
    with (put_cmd out_path).
  unfold mbind, M_bind at 1.
  rewrite ConnectionBase_put_file_run. cbn beta iota zeta.
  assert (Hfs0 : fs (_connect s).2 !! in_path = Some data) by exact Hfs.
  generalize dependent ((_connect s).2). intros s0 Hfs0.
  unfold M_bind at 1 2, open_rb, read. rewrite Hfs0.
  cbn beta iota. rewrite Hfs0.
  change (default [] (Some data)) with data.
  unfold M_bind at 1. rewrite _qubes_run. cbn zeta.
  unfold M_bind.
  destruct (returncode (inv_result (qubes_child s0 _ _ _)) =? 127) eqn:E127.
  - rewrite _qubes_run. cbn beta iota zeta.
    destruct (returncode (inv_result (qubes_child (ran _ s0) _ _ _)) =? 0);
      reflexivity.
  - unfold mret, M_ret. cbn beta iota zeta.
    destruct (returncode (inv_result (qubes_child s0 _ _ _)) =? 0);
      reflexivity.
Qed.

Lemma put_file_run (s : State) (in_path out_path : string) (data : bytes) :
  fs s !! in_path = Some data →
  put_file in_path out_path s =
  (let c1 := qubes_child s (put_cmd out_path) (Some data) "qubes.VMRootShell" in
   if returncode (inv_result c1) =? 127
   then
     let c2 := qubes_child (ran c1 s) (put_cmd out_path) (Some data)
                 "qubes.VMShell" in
     (if returncode (inv_result c2) =? 0
      then Ok tt
      else Raise (RuntimeError ("Failed to put_file to " +:+ out_path)),
      ran c2 (ran c1 (_connect s).2))
   else
     (if returncode (inv_result c1) =? 0
      then Ok tt
      else Raise (RuntimeError ("Failed to put_file to " +:+ out_path)),
      ran c1 (_connect s).2)).
Proof. intros Hfs. rewrite (put_file_run0 _ _ _ _ Hfs). reflexivity. Qed.

(** C1: the first child of [put_file] is the host's answer to the push
    command and the file content sent to [qubes.VMRootShell]; when it exits
    with 127, exactly one more child is started, for [qubes.VMShell], with
    the same input (command and file content), and is the host's answer to
    that; with any other exit status no further child is started. *)
Theorem put_file_fallback (s : State) (in_path out_path : string)
    (data : bytes) :
  fs s !! in_path = Some data →
  ∃ inv1,
    inv_args inv1 = qubes_argv (self s) "qubes.VMRootShell"
    ∧ last (inv_args inv1) = Some (to_bytes "qubes.VMRootShell")
    ∧ inv_stdin inv1 = Some (to_bytes (put_cmd out_path) ++ data)
    ∧ inv_result inv1 = run_child (spawned s) (inv_args inv1) (inv_stdin inv1)
    ∧ ((returncode (inv_result inv1) = 127
        ∧ ∃ inv2,
            spawned (put_file in_path out_path s).2 = spawned s ++ [inv1; inv2]
            ∧ inv_args inv2 = qubes_argv (self s) "qubes.VMShell"
            ∧ last (inv_args inv2) = Some (to_bytes "qubes.VMShell")
            ∧ inv_stdin inv2 = inv_stdin inv1
            ∧ inv_stdin inv2 = Some (to_bytes (put_cmd out_path) ++ data)
            ∧ inv_result inv2 =
              run_child (spawned s ++ [inv1]) (inv_args inv2) (inv_stdin inv2))
       ∨ (returncode (inv_result inv1) ≠ 127
          ∧ spawned (put_file in_path out_path s).2 = spawned s ++ [inv1])).
Proof.
  intros Hfs. rewrite (put_file_run _ _ _ _ Hfs). cbn zeta.
  assert (Hstdin : ∀ st sh,
    inv_stdin (qubes_child st (put_cmd out_path) (Some data) sh) =
    Some (to_bytes (put_cmd out_path) ++ data)).
  { intros st sh. rewrite put_child_stdin. unfold put_cmd.
    rewrite !to_bytes_app, to_bytes_LF, <- !app_assoc. reflexivity. }
  exists (qubes_child s (put_cmd out_path) (Some data) "qubes.VMRootShell").
  split; [reflexivity|]. split; [apply last_qubes_argv|].
  split; [apply Hstdin|]. split; [reflexivity|].
  destruct (Z.eqb_spec
    (returncode (inv_result
       (qubes_child s (put_cmd out_path) (Some data) "qubes.VMRootShell")))
    127) as [E|E]; [left|right]; (split; [exact E|]).
  - eexists. split.
    + cbn [snd ran spawned]. rewrite <- app_assoc. reflexivity.
    + split; [reflexivity|]. split; [apply last_qubes_argv|].
      split; [rewrite !Hstdin; reflexivity|].
      split; [apply Hstdin|]. reflexivity.
  - reflexivity.
Qed.

(** C4: every child that [put_file] starts receives on its input the text
    [cat > "out_path"], a line feed, and then the bytes of the local file,
    unchanged; at least one such child is started. *)
Theorem put_file_stream (s : State) (in_path out_path : string)
    (data : bytes) :
  fs s !! in_path = Some data →
  ∃ inv rest,
    spawned (put_file in_path out_path s).2 = spawned s ++ inv :: rest
    ∧ Forall (λ i, inv_stdin i =
                   Some (to_bytes ("cat > " +:+ DQUOTE +:+ out_path +:+ DQUOTE)
                         ++ [x0a] ++ data))
             (inv :: rest).
Proof.
  intros Hfs. rewrite (put_file_run _ _ _ _ Hfs). cbn zeta.
  destruct (returncode _ =? 127).
  - do 2 eexists. split.
    + cbn [snd ran spawned]. rewrite <- app_assoc. reflexivity.
    + repeat constructor; apply put_child_stdin.
  - exists (qubes_child s (put_cmd out_path) (Some data) "qubes.VMRootShell"), [].
    split; [reflexivity|]. repeat constructor. apply put_child_stdin.
Qed.

(** C6: [put_file] raises [RuntimeError] with the message
    [Failed to put_file to out_path] exactly when the exit status of the
    last child it ran is not zero, and returns normally when it is zero.
    That last child is the host's answer to the push sent to
    [qubes.VMRootShell], or, when that one exits with 127, the host's
    answer to the same push sent to [qubes.VMShell]. *)
Theorem put_file_verdict (s : State) (in_path out_path : string)
    (data : bytes) :
  fs s !! in_path = Some data →
  ∃ inv1 final,
    (inv_args inv1 = qubes_argv (self s) "qubes.VMRootShell"
     ∧ inv_stdin inv1 = Some (to_bytes (put_cmd out_path) ++ data)
     ∧ inv_result inv1 = run_child (spawned s) (inv_args inv1) (inv_stdin inv1))
    ∧ ((returncode (inv_result inv1) ≠ 127 ∧ final = inv1)
       ∨ (returncode (inv_result inv1) = 127
          ∧ inv_args final = qubes_argv (self s) "qubes.VMShell"
          ∧ inv_stdin final = Some (to_bytes (put_cmd out_path) ++ data)
          ∧ inv_result final =
            run_child (spawned s ++ [inv1]) (inv_args final) (inv_stdin final)))
    ∧ last (spawned (put_file in_path out_path s).2) = Some final
    ∧ ((put_file in_path out_path s).1 =
         Raise (RuntimeError ("Failed to put_file to " +:+ out_path))
       ↔ returncode (inv_result final) ≠ 0)
    ∧ ((put_file in_path out_path s).1 = Ok tt
       ↔ returncode (inv_result final) = 0).
Proof.
  intros Hfs. rewrite (put_file_run _ _ _ _ Hfs). cbn zeta.
  assert (Hstdin : ∀ st sh,
    inv_stdin (qubes_child st (put_cmd out_path) (Some data) sh) =
    Some (to_bytes (put_cmd out_path) ++ data)).
  { intros st sh. rewrite put_child_stdin. unfold put_cmd.
    rewrite !to_bytes_app, to_bytes_LF, <- !app_assoc. reflexivity. }
  set (c1 := qubes_child s (put_cmd out_path) (Some data) "qubes.VMRootShell").
  set (c2 := qubes_child (ran c1 s) (put_cmd out_path) (Some data)
               "qubes.VMShell").
  destruct (Z.eqb_spec (returncode (inv_result c1)) 127) as [E1|E1].
  - exists c1, c2.
    split; [split; [reflexivity|split; [apply Hstdin|reflexivity]]|].
    split.
    { right. split; [exact E1|]. split; [reflexivity|].
      split; [apply Hstdin|reflexivity]. }
    split; [cbn [snd ran spawned]; apply last_snoc|]. cbn [fst].
    destruct (Z.eqb_spec (returncode (inv_result c2)) 0) as [E|E];
      split; split; intros; congruence.
  - exists c1, c1.
    split; [split; [reflexivity|split; [apply Hstdin|reflexivity]]|].
    split; [left; split; [exact E1|reflexivity]|].
    split; [cbn [snd ran spawned]; apply last_snoc|]. cbn [fst].
    destruct (Z.eqb_spec (returncode (inv_result c1)) 0) as [E|E];
      split; split; intros; congruence.
Qed.

End Put.

(** ** Fetching a file *)

Section Fetch.
Context `{Host}.

Lemma fetch_file_run (s : State) (in_path out_path : string) :
  can_create out_path = true →
  fetch_file in_path out_path s =
  (let args := map fsencode
                 ["qvm-run"; "--pass-io"; _remote_vmname (self s);
                  "cat " +:+ in_path]%string in
   let c := run_child (spawned s) args None in
   (if returncode c =? 0
    then Ok tt
    else Raise (RuntimeError ("Failed to fetch file to " +:+ out_path)),
    {| self := self (_connect s).2;
       fs := <[out_path := stdout c]> (fs s);
       spawned := spawned s ++
         [{| inv_args := args; inv_stdin := None;
             inv_stdout := TOFILE (FileObj out_path); inv_stderr := INHERIT;
             inv_result := c |}] |})).
Proof.
  intros Hcreate. unfold fetch_file, mbind, M_bind at 1.
  rewrite ConnectionBase_fetch_file_run. cbn beta iota.
  unfold M_bind, get_self, open_wb, Popen, mret, M_ret, communicate.
  rewrite Hcreate.
  cbn [p_stdin p_stdout p_stderr p_args p_written self fs spawned
       write_through captured snd _connect].
  rewrite lookup_insert_eq, insert_insert_eq. cbn [default from_option id app].
  cbn zeta.
  destruct (returncode _ =? 0); reflexivity.
Qed.

Lemma fetch_file_unwritable (s : State) (in_path out_path : string) :
  can_create out_path = false →
  fetch_file in_path out_path s = (Raise (OSError out_path), (_connect s).2).
Proof.
  intros Hcreate. unfold fetch_file, mbind, M_bind at 1.
  rewrite ConnectionBase_fetch_file_run. cbn beta iota.
  unfold M_bind, get_self, open_wb. rewrite Hcreate. reflexivity.
Qed.

(** C7: when the local file can be opened for writing, [fetch_file] runs
    one child, the host's answer to [qvm-run --pass-io target "cat in_path"]
    with no piped input, whose output goes to the local file.  Afterwards
    that file holds exactly the bytes the child wrote, whatever the exit
    status; a non-zero status raises [RuntimeError] with the message
    [Failed to fetch file to out_path], status zero returns normally.  No
    other file changes.  When the local file cannot be opened, [open]
    raises: no child is started and no file changes. *)
Theorem fetch_file_outcome (s : State) (in_path out_path : string) :
  (can_create out_path = true
   ∧ ∃ inv,
       spawned (fetch_file in_path out_path s).2 = spawned s ++ [inv]
       ∧ inv_args inv =
         map fsencode ["qvm-run"; "--pass-io"; _remote_vmname (self s);
                       "cat " +:+ in_path]%string
       ∧ inv_stdin inv = None
       ∧ inv_stdout inv = TOFILE (FileObj out_path)
       ∧ inv_stderr inv = INHERIT
       ∧ inv_result inv = run_child (spawned s) (inv_args inv) None
       ∧ fs (fetch_file in_path out_path s).2 !! out_path =
         Some (stdout (inv_result inv))
       ∧ delete out_path (fs (fetch_file in_path out_path s).2) =
         delete out_path (fs s)
       ∧ ((returncode (inv_result inv) ≠ 0
           ∧ (fetch_file in_path out_path s).1 =
             Raise (RuntimeError ("Failed to fetch file to " +:+ out_path)))
          ∨ (returncode (inv_result inv) = 0
             ∧ (fetch_file in_path out_path s).1 = Ok tt)))
  ∨ (can_create out_path = false
     ∧ (fetch_file in_path out_path s).1 = Raise (OSError out_path)
     ∧ spawned (fetch_file in_path out_path s).2 = spawned s
     ∧ fs (fetch_file in_path out_path s).2 = fs s).
Proof.
  destruct (can_create out_path) eqn:Hcreate; [left|right];
    (split; [reflexivity|]).
  - rewrite (fetch_file_run _ _ _ Hcreate). cbn zeta. eexists.
    split; [reflexivity|]. do 5 (split; [reflexivity|]).
    cbn [snd fst fs inv_result].
    split; [apply lookup_insert_eq|].
    split; [apply delete_insert_eq|].
    destruct (Z.eqb_spec (returncode (run_child (spawned s)
      (map fsencode ["qvm-run"; "--pass-io"; _remote_vmname (self s);
                     "cat " +:+ in_path]%string) None)) 0) as [E|E];
      [right|left]; (split; [exact E|reflexivity]).
  - rewrite (fetch_file_unwritable _ _ _ Hcreate). repeat split.
Qed.

(** C10: [fetch_file] does not consult the connection's user: its result,
    the children it starts and the files it leaves are the same whatever
    the user is.  When the local file can be opened, the one child's
    argument vector is [qvm-run --pass-io], the target name and the remote
    command, with nothing between the base flag and the target name; when
    it cannot, no child is started. *)
Theorem fetch_file_ignores_user (s : State) (in_path out_path : string)
    (u : string) :
  (fetch_file in_path out_path (with_user u s)).1 =
  (fetch_file in_path out_path s).1
  ∧ spawned (fetch_file in_path out_path (with_user u s)).2 =
    spawned (fetch_file in_path out_path s).2
  ∧ fs (fetch_file in_path out_path (with_user u s)).2 =
    fs (fetch_file in_path out_path s).2
  ∧ ((can_create out_path = true
      ∧ ∃ inv,
          spawned (fetch_file in_path out_path s).2 = spawned s ++ [inv]
          ∧ inv_args inv =
            map fsencode ["qvm-run"; "--pass-io"; _remote_vmname (self s);
                          "cat " +:+ in_path]%string
          ∧ spawned (fetch_file in_path out_path (with_user u s)).2 =
            spawned s ++ [inv])
     ∨ (can_create out_path = false
        ∧ spawned (fetch_file in_path out_path s).2 = spawned s)).
Proof.
  destruct (can_create out_path) eqn:Hcreate.
  - rewrite !(fetch_file_run _ _ _ Hcreate). cbn zeta.
    do 3 (split; [reflexivity|]). left. split; [reflexivity|].
    eexists. repeat split; reflexivity.
  - rewrite !(fetch_file_unwritable _ _ _ Hcreate).
    do 3 (split; [reflexivity|]). right. split; reflexivity.
Qed.

End Fetch.

(** ** Running a command, and the connected flag *)

Section Lifecycle.
Context `{Host}.

Lemma exec_command_run (s : State) (cmd : string) (in_data : option bytes)
    (sudoable : bool) :
  exec_command cmd in_data sudoable s =
  _qubes cmd None "qubes.VMShell" (_connect s).2.
Proof.
  unfold exec_command. rewrite ensure_connect_run.
  unfold mbind, M_bind at 1. rewrite ConnectionBase_exec_command_run.
  cbn beta iota. unfold M_bind. rewrite !_qubes_run. reflexivity.
Qed.

(** C9: [exec_command] does not pass [in_data] on: for any two values of
    it the result and the final state are the same, and the one child that
    is started receives the command text alone on its input.  The plugin
    nevertheless declares [has_pipelining]. *)
Theorem exec_command_ignores_in_data (s : State) (cmd : string)
    (in_data1 in_data2 : option bytes) (sudoable : bool) :
  exec_command cmd in_data1 sudoable s = exec_command cmd in_data2 sudoable s
  ∧ (∃ inv,
       spawned (exec_command cmd in_data1 sudoable s).2 = spawned s ++ [inv]
       ∧ inv_args inv = qubes_argv (self s) "qubes.VMShell"
       ∧ inv_stdin inv = Some (to_bytes (framed cmd))
       ∧ (exec_command cmd in_data1 sudoable s).1 =
         Ok (returncode (inv_result inv), Some (stdout (inv_result inv)),
             Some (stderr (inv_result inv))))
  ∧ has_pipelining = true.
Proof.
  split; [reflexivity|]. split; [|reflexivity].
  rewrite exec_command_run, _qubes_run. cbn zeta. eexists.
  split; [reflexivity|]. split; [reflexivity|]. split; [|reflexivity].
  cbn [inv_stdin qubes_child default from_option]. rewrite app_nil_r.
  reflexivity.
Qed.

(** C8: a new connection is not connected; [_connect] sets the flag,
    [close] clears it; [close] on a closed connection returns normally and
    changes nothing; connect, close, connect leaves the flag set. *)
Theorem connected_flag_lifecycle (play_context : PlayContext) (s : State) :
  _connected (__init__ play_context) = false
  ∧ _connect s = (Ok tt, (_connect s).2)
  ∧ _connected (self (_connect s).2) = true
  ∧ close s = (Ok tt, (close s).2)
  ∧ _connected (self (close s).2) = false
  ∧ close (close s).2 = (Ok tt, (close s).2)
  ∧ close {| self := __init__ play_context; fs := fs s; spawned := spawned s |}
    = (Ok tt,
       {| self := __init__ play_context; fs := fs s; spawned := spawned s |})
  ∧ _connected (self (_connect (close (_connect s).2).2).2) = true.
Proof. repeat split; reflexivity. Qed.

(** C5, as the code has it: no operation is refused on a closed
    connection.  [exec_command], [put_file] and [fetch_file] each pass
    through [ensure_connect], which sets the flag again, and then do exactly
    what they do on a connected connection: the command runs its child, the
    fetch opens the local file and, unless [open] raises, runs its child,
    the push reads the local file and runs its children. *)
Theorem operations_after_close (s : State) (in_path out_path cmd : string)
    (in_data : option bytes) (sudoable : bool) :
  _connected (self (close s).2) = false
  ∧ exec_command cmd in_data sudoable (close s).2 =
    exec_command cmd in_data sudoable (_connect s).2
  ∧ put_file in_path out_path (close s).2 =
    put_file in_path out_path (_connect s).2
  ∧ fetch_file in_path out_path (close s).2 =
    fetch_file in_path out_path (_connect s).2
  ∧ (∃ inv,
       exec_command cmd in_data sudoable (close s).2 =
       (Ok (returncode (inv_result inv), Some (stdout (inv_result inv)),
            Some (stderr (inv_result inv))),
        ran inv (_connect s).2))
  ∧ ((can_create out_path = true
      ∧ ∃ inv,
          spawned (fetch_file in_path out_path (close s).2).2 =
          spawned s ++ [inv])
     ∨ (can_create out_path = false
        ∧ (fetch_file in_path out_path (close s).2).1 =
          Raise (OSError out_path)))
  ∧ (_connected (self (exec_command cmd in_data sudoable (close s).2).2) = true
     ∧ _connected (self (put_file in_path out_path (close s).2).2) = true
     ∧ _connected (self (fetch_file in_path out_path (close s).2).2) = true)
  ∧ (¬ refused (exec_command cmd in_data sudoable) (close s).2
     ∧ ¬ refused (put_file in_path out_path) (close s).2
     ∧ ¬ refused (fetch_file in_path out_path) (close s).2).
Proof.
  assert (Hflags :
    _connected (self (exec_command cmd in_data sudoable (close s).2).2) = true
    ∧ _connected (self (put_file in_path out_path (close s).2).2) = true
    ∧ _connected (self (fetch_file in_path out_path (close s).2).2) = true).
  { split; [rewrite exec_command_run, _qubes_run; reflexivity|].
    split.
    - destruct (fs s !! in_path) as [data|] eqn:Hfs.
      + rewrite (put_file_run (close s).2 _ _ data Hfs). cbn zeta.
        destruct (returncode _ =? 127); reflexivity.
      + rewrite (put_file_missing (close s).2 _ _ Hfs). reflexivity.
    - destruct (can_create out_path) eqn:Hcreate.
      + rewrite (fetch_file_run _ _ _ Hcreate). reflexivity.
      + rewrite (fetch_file_unwritable _ _ _ Hcreate). reflexivity. }
  split; [reflexivity|].
  split; [rewrite !exec_command_run; reflexivity|].
  assert (Hput : put_file in_path out_path (close s).2 =
                 put_file in_path out_path (_connect s).2).
  { destruct (fs s !! in_path) as [data|] eqn:Hfs.
    - rewrite (put_file_run (close s).2 _ _ data Hfs).
      rewrite (put_file_run (_connect s).2 _ _ data Hfs). reflexivity.
    - rewrite (put_file_missing (close s).2 _ _ Hfs).
      rewrite (put_file_missing (_connect s).2 _ _ Hfs). reflexivity. }
  split; [exact Hput|].
  split.
  { destruct (can_create out_path) eqn:Hcreate.
    - rewrite !(fetch_file_run _ _ _ Hcreate). reflexivity.
    - rewrite !(fetch_file_unwritable _ _ _ Hcreate). reflexivity. }
  split; [rewrite exec_command_run, _qubes_run; eexists; reflexivity|].
  split.
  { destruct (can_create out_path) eqn:Hcreate; [left|right];
      (split; [reflexivity|]).
    - rewrite (fetch_file_run _ _ _ Hcreate). eexists. reflexivity.
    - rewrite (fetch_file_unwritable _ _ _ Hcreate). reflexivity. }
  split; [exact Hflags|].
  destruct Hflags as (Fexec & Fput & Ffetch).
  split; [|split]; intros [e He].
  - rewrite He in Fexec. discriminate Fexec.
  - rewrite He in Fput. discriminate Fput.
  - rewrite He in Ffetch. discriminate Ffetch.
Qed.

End Lifecycle.

(** ** The sample host at work *)

Example sample_fs_lookup : fs sample_state !! "/tmp/a"%string = Some sample_data.
Proof. vm_compute. reflexivity. Qed.

(** The scenario of a push with fallback: two children, the first exits
    with 127, the second with 0, and the push succeeds. *)
Example sample_put_two_children :
  (put_file (H:=sample_host) "/tmp/a" "/home/user/a" sample_state).1 = Ok tt
  ∧ map (λ i, (inv_args i, returncode (inv_result i)))
        (spawned (put_file (H:=sample_host) "/tmp/a" "/home/user/a"
                    sample_state).2)
    = [(map to_bytes ["qvm-run"; "--pass-io"; "--service"; "-u"; "root";
                      "work"; "qubes.VMRootShell"]%string, 127);
       (map to_bytes ["qvm-run"; "--pass-io"; "--service"; "-u"; "root";
                      "work"; "qubes.VMShell"]%string, 0)].
Proof. vm_compute. split; reflexivity. Qed.

(** A failed fetch leaves what the child wrote in the local file. *)
Example failing_fetch_leaves_partial_file :
  fetch_file (H:=failing_host) "/etc/hostname" "/tmp/h" sample_state
  = (Raise (RuntimeError "Failed to fetch file to /tmp/h"),
     {| self := self (_connect sample_state).2;
        fs := <["/tmp/h"%string := to_bytes "bo"]> (fs sample_state);
        spawned :=
          [{| inv_args := map fsencode ["qvm-run"; "--pass-io"; "work";
                                        "cat /etc/hostname"]%string;
              inv_stdin := None;
              inv_stdout := TOFILE (FileObj "/tmp/h");
              inv_stderr := INHERIT;
              inv_result := {| returncode := 1; stdout := to_bytes "bo";
                               stderr := [] |} |}] |}).
Proof.
  rewrite (fetch_file_run (H:=failing_host) _ _ _ eq_refl). reflexivity.
Qed.

(** Where the local file cannot be created, nothing is fetched: [open]
    raises and no child is started. *)
Example unwritable_fetch_starts_no_child :
  fetch_file (H:=readonly_host) "/etc/hostname" "/tmp/h" sample_state
  = (Raise (OSError "/tmp/h"), (_connect sample_state).2).
Proof. apply (fetch_file_unwritable (H:=readonly_host)). reflexivity. Qed.

Lemma put_file_fallback_witness :
  fs sample_state !! "/tmp/a"%string = Some sample_data
  ∧ ∃ inv1,
      inv_args inv1 = qubes_argv (self sample_state) "qubes.VMRootShell"
      ∧ last (inv_args inv1) = Some (to_bytes "qubes.VMRootShell")
      ∧ inv_stdin inv1 = Some (to_bytes (put_cmd "/home/user/a") ++ sample_data)
      ∧ inv_result inv1 =
        run_child (Host:=sample_host) (spawned sample_state) (inv_args inv1)
          (inv_stdin inv1)
      ∧ ((returncode (inv_result inv1) = 127
          ∧ ∃ inv2,
              spawned (put_file (H:=sample_host) "/tmp/a" "/home/user/a"
                         sample_state).2
              = spawned sample_state ++ [inv1; inv2]
              ∧ inv_args inv2 = qubes_argv (self sample_state) "qubes.VMShell"
              ∧ last (inv_args inv2) = Some (to_bytes "qubes.VMShell")
              ∧ inv_stdin inv2 = inv_stdin inv1
              ∧ inv_stdin inv2 =
                Some (to_bytes (put_cmd "/home/user/a") ++ sample_data)
              ∧ inv_result inv2 =
                run_child (Host:=sample_host) (spawned sample_state ++ [inv1])
                  (inv_args inv2) (inv_stdin inv2))
         ∨ (returncode (inv_result inv1) ≠ 127
            ∧ spawned (put_file (H:=sample_host) "/tmp/a" "/home/user/a"
                         sample_state).2
              = spawned sample_state ++ [inv1])).
Proof.
  split; [vm_compute; reflexivity|].
  apply (put_file_fallback (H:=sample_host) sample_state "/tmp/a"
           "/home/user/a" sample_data).
  vm_compute. reflexivity.
Defined.

Lemma put_file_stream_witness :
  fs sample_state !! "/tmp/a"%string = Some sample_data
  ∧ ∃ inv rest,
      spawned (put_file (H:=sample_host) "/tmp/a" "/home/user/a"
                 sample_state).2
      = spawned sample_state ++ inv :: rest
      ∧ Forall (λ i, inv_stdin i =
                     Some (to_bytes ("cat > " +:+ DQUOTE +:+ "/home/user/a"
                                     +:+ DQUOTE)
                           ++ [x0a] ++ sample_data))
               (inv :: rest).
Proof.
  split; [vm_compute; reflexivity|].
  apply (put_file_stream (H:=sample_host) sample_state "/tmp/a"
           "/home/user/a" sample_data).
  vm_compute. reflexivity.
Defined.

Lemma put_file_verdict_witness :
  fs sample_state !! "/tmp/a"%string = Some sample_data
  ∧ ∃ inv1 final,
      (inv_args inv1 = qubes_argv (self sample_state) "qubes.VMRootShell"
       ∧ inv_stdin inv1 =
         Some (to_bytes (put_cmd "/home/user/a") ++ sample_data)
       ∧ inv_result inv1 =
         run_child (Host:=failing_host) (spawned sample_state) (inv_args inv1)
           (inv_stdin inv1))
      ∧ ((returncode (inv_result inv1) ≠ 127 ∧ final = inv1)
         ∨ (returncode (inv_result inv1) = 127
            ∧ inv_args final = qubes_argv (self sample_state) "qubes.VMShell"
            ∧ inv_stdin final =
              Some (to_bytes (put_cmd "/home/user/a") ++ sample_data)
            ∧ inv_result final =
              run_child (Host:=failing_host) (spawned sample_state ++ [inv1])
                (inv_args final) (inv_stdin final)))
      ∧ last (spawned (put_file (H:=failing_host) "/tmp/a" "/home/user/a"
                         sample_state).2) = Some final
      ∧ ((put_file (H:=failing_host) "/tmp/a" "/home/user/a" sample_state).1
         = Raise (RuntimeError ("Failed to put_file to " +:+ "/home/user/a"))
         ↔ returncode (inv_result final) ≠ 0)
      ∧ ((put_file (H:=failing_host) "/tmp/a" "/home/user/a" sample_state).1
         = Ok tt
         ↔ returncode (inv_result final) = 0).
Proof.
  split; [vm_compute; reflexivity|].
  apply (put_file_verdict (H:=failing_host) sample_state "/tmp/a"
           "/home/user/a" sample_data).
  vm_compute. reflexivity.
Defined.

(** On a connection that has just been closed, the three operations are
    carried out: the push and the fetch return normally after running their
    children, the command returns its child's status and output.  None of
    them is refused. *)
Lemma closed_connection_still_operates :
  _connected (self (close sample_state).2) = false
  ∧ (put_file (H:=sample_host) "/tmp/a" "/home/user/a"
       (close sample_state).2).1 = Ok tt
  ∧ length (spawned (put_file (H:=sample_host) "/tmp/a" "/home/user/a"
                       (close sample_state).2).2) = 2%nat
  ∧ ¬ refused (put_file (H:=sample_host) "/tmp/a" "/home/user/a")
        (close sample_state).2
  ∧ (fetch_file (H:=sample_host) "/etc/hostname" "/tmp/h"
       (close sample_state).2).1 = Ok tt
  ∧ fs (fetch_file (H:=sample_host) "/etc/hostname" "/tmp/h"
          (close sample_state).2).2 !! "/tmp/h"%string = Some sample_output
  ∧ ¬ refused (fetch_file (H:=sample_host) "/etc/hostname" "/tmp/h")
        (close sample_state).2
  ∧ (exec_command (H:=sample_host) "echo hi" None false
       (close sample_state).2).1 = Ok (0, Some sample_output, Some [])
  ∧ ¬ refused (exec_command (H:=sample_host) "echo hi" None false)
        (close sample_state).2.
Proof.
  assert (Hput : (put_file (H:=sample_host) "/tmp/a" "/home/user/a"
                    (close sample_state).2).1 = Ok tt)
    by (vm_compute; reflexivity).
  assert (Hfetch : (fetch_file (H:=sample_host) "/etc/hostname" "/tmp/h"
                      (close sample_state).2).1 = Ok tt)
    by (vm_compute; reflexivity).
  assert (Hexec : (exec_command (H:=sample_host) "echo hi" None false
                     (close sample_state).2).1
                  = Ok (0, Some sample_output, Some []))
    by (vm_compute; reflexivity).
  repeat split; try (vm_compute; reflexivity).
  - intros [e He]. rewrite He in Hput. discriminate Hput.
  - intros [e He]. rewrite He in Hfetch. discriminate Hfetch.
  - intros [e He]. rewrite He in Hexec. discriminate Hexec.
Qed.

(** ** Further properties of the methods *)

Section Further.
Context `{Host}.

(** X1: for a connection built by [__init__], [_qubes] passes no [-u] pair
    when the play context has no remote user, an empty one, or [user]
    itself; with any other remote user [u] it passes [-u], [u].  The target
    name is the play context's [remote_addr]. *)
Theorem init_then_qubes_argument_vector (play_context : PlayContext)
    (files : gmap string bytes) (history : list Invocation)
    (cmd : string) (in_data : option bytes) (shell : string) :
  ∃ inv,
    spawned (_qubes cmd in_data shell
               {| self := __init__ play_context; fs := files;
                  spawned := history |}).2
    = history ++ [inv]
    ∧ (((remote_user play_context = None
         ∨ remote_user play_context = Some ""%string
         ∨ remote_user play_context = Some "user"%string)
        ∧ inv_args inv =
          map to_bytes ["qvm-run"; "--pass-io"; "--service";
                        remote_addr play_context; shell]%string)
       ∨ (∃ u, remote_user play_context = Some u
               ∧ u ≠ ""%string ∧ u ≠ "user"%string
               ∧ inv_args inv =
                 map to_bytes ["qvm-run"; "--pass-io"; "--service"; "-u"; u;
                               remote_addr play_context; shell]%string)).
Proof.
  rewrite _qubes_run. eexists. split; [reflexivity|].
  destruct play_context as [addr [[|c u]|]];
    unfold qubes_child, qubes_argv, __init__;
    cbn [inv_args self user _remote_vmname remote_user remote_addr truthy].
  - left. split; [right; left|]; reflexivity.
  - destruct (String.eqb_spec (String c u) "user") as [E|E].
    + left. split; [right; right; rewrite E|]; reflexivity.
    + right. exists (String c u).
      split; [reflexivity|]. split; [discriminate|]. split; [exact E|].
      reflexivity.
  - left. split; [left|]; reflexivity.
Qed.

(** X2: when the local file does not exist, [put_file] raises
    [FileNotFoundError] for that path before any child is started, and
    leaves the local files as they were. *)
Theorem put_file_missing_local_file (s : State) (in_path out_path : string) :
  fs s !! in_path = None →
  (put_file in_path out_path s).1 = Raise (FileNotFoundError in_path)
  ∧ spawned (put_file in_path out_path s).2 = spawned s
  ∧ fs (put_file in_path out_path s).2 = fs s.
Proof.
  intros Hfs. rewrite (put_file_missing _ _ _ Hfs). repeat split.
Qed.

(** X3: with the local file readable, [put_file] returns normally exactly
    when its first child exits with 0, or its first child exits with 127
    and the one fallback child exits with 0; in particular a 127 from the
    fallback child is a failure, not a reason for another attempt.  The
    first child is the host's answer to the push sent to
    [qubes.VMRootShell]; the fallback child, started exactly when the first
    exits with 127, is the host's answer to the same push sent to
    [qubes.VMShell]. *)
Theorem put_file_success_cases (s : State) (in_path out_path : string)
    (data : bytes) :
  fs s !! in_path = Some data →
  ∃ inv1 rest,
    spawned (put_file in_path out_path s).2 = spawned s ++ inv1 :: rest
    ∧ (length rest ≤ 1)%nat
    ∧ (inv_args inv1 = qubes_argv (self s) "qubes.VMRootShell"
       ∧ inv_stdin inv1 = Some (to_bytes (put_cmd out_path) ++ data)
       ∧ inv_result inv1 =
         run_child (spawned s) (inv_args inv1) (inv_stdin inv1))
    ∧ ((returncode (inv_result inv1) = 127
        ∧ ∃ inv2,
            rest = [inv2]
            ∧ inv_args inv2 = qubes_argv (self s) "qubes.VMShell"
            ∧ inv_stdin inv2 = Some (to_bytes (put_cmd out_path) ++ data)
            ∧ inv_result inv2 =
              run_child (spawned s ++ [inv1]) (inv_args inv2) (inv_stdin inv2))
       ∨ (returncode (inv_result inv1) ≠ 127 ∧ rest = []))
    ∧ ((put_file in_path out_path s).1 = Ok tt
       ↔ (returncode (inv_result inv1) = 0
          ∨ (returncode (inv_result inv1) = 127
             ∧ ∃ inv2, rest = [inv2] ∧ returncode (inv_result inv2) = 0))).
Proof.
  intros Hfs. rewrite (put_file_run _ _ _ _ Hfs). cbn zeta.
  assert (Hstdin : ∀ st sh,
    inv_stdin (qubes_child st (put_cmd out_path) (Some data) sh) =
    Some (to_bytes (put_cmd out_path) ++ data)).
  { intros st sh. rewrite put_child_stdin. unfold put_cmd.
    rewrite !to_bytes_app, to_bytes_LF, <- !app_assoc. reflexivity. }
  set (c1 := qubes_child s (put_cmd out_path) (Some data) "qubes.VMRootShell").
  set (c2 := qubes_child (ran c1 s) (put_cmd out_path) (Some data) "qubes.VMShell").
  destruct (Z.eqb_spec (returncode (inv_result c1)) 127) as [E1|E1].
  - exists c1, [c2]. split.
    + cbn [snd ran spawned]. rewrite <- app_assoc. reflexivity.
    + split; [cbn; lia|].
      split; [split; [reflexivity|split; [apply Hstdin|reflexivity]]|].
      split.
      { left. split; [exact E1|]. exists c2. split; [reflexivity|].
        split; [reflexivity|]. split; [apply Hstdin|reflexivity]. }
      cbn [fst].
      destruct (Z.eqb_spec (returncode (inv_result c2)) 0) as [E2|E2]; split.
      * intros _. right. split; [exact E1|]. exists c2. split; [reflexivity|exact E2].
      * reflexivity.
      * discriminate.
      * intros [E0|[_ [inv2 [Hrest E0]]]]; [lia|].
        injection Hrest as <-. contradiction.
  - exists c1, []. split; [reflexivity|]. split; [cbn; lia|].
    split; [split; [reflexivity|split; [apply Hstdin|reflexivity]]|].
    split; [right; split; [exact E1|reflexivity]|].
    cbn [fst].
    destruct (Z.eqb_spec (returncode (inv_result c1)) 0) as [E0|E0]; split.
    + intros _. left. exact E0.
    + reflexivity.
    + discriminate.
    + intros [E|[E _]]; contradiction.
Qed.

(** X4: [exec_command], [put_file] and [fetch_file] never change the target:
    afterwards the plugin object is the one [_connect] leaves (same VM name,
    same user, flag set), whether they return or raise.  [_connect] and
    [close] keep the VM name and the user. *)
Theorem operations_keep_target (s : State) (cmd in_path out_path : string)
    (in_data : option bytes) (sudoable : bool) :
  self (exec_command cmd in_data sudoable s).2 = self (_connect s).2
  ∧ self (put_file in_path out_path s).2 = self (_connect s).2
  ∧ self (fetch_file in_path out_path s).2 = self (_connect s).2
  ∧ _remote_vmname (self (_connect s).2) = _remote_vmname (self s)
  ∧ user (self (_connect s).2) = user (self s)
  ∧ _remote_vmname (self (close s).2) = _remote_vmname (self s)
  ∧ user (self (close s).2) = user (self s).
Proof.
  split; [rewrite exec_command_run, _qubes_run; reflexivity|].
  split; [|split; [|repeat split]].
  - destruct (fs s !! in_path) as [data|] eqn:Hfs.
    + rewrite (put_file_run _ _ _ _ Hfs). cbn zeta.
      destruct (returncode _ =? 127); reflexivity.
    + rewrite (put_file_missing _ _ _ Hfs). reflexivity.
  - destruct (can_create out_path) eqn:Hcreate.
    + rewrite (fetch_file_run _ _ _ Hcreate). reflexivity.
    + rewrite (fetch_file_unwritable _ _ _ Hcreate). reflexivity.
Qed.

(** X5: only [fetch_file] writes local files: [exec_command] and [put_file]
    leave every local file as it was, whatever the children answer, and
    [_connect] and [close] neither touch a file nor start a child. *)
Theorem local_files_untouched (s : State) (cmd in_path out_path : string)
    (in_data : option bytes) (sudoable : bool) :
  fs (exec_command cmd in_data sudoable s).2 = fs s
  ∧ fs (put_file in_path out_path s).2 = fs s
  ∧ (fs (_connect s).2 = fs s ∧ spawned (_connect s).2 = spawned s)
  ∧ (fs (close s).2 = fs s ∧ spawned (close s).2 = spawned s).
Proof.
  split; [rewrite exec_command_run, _qubes_run; reflexivity|].
  split; [|repeat split].
  destruct (fs s !! in_path) as [data|] eqn:Hfs.
  - rewrite (put_file_run _ _ _ _ Hfs). cbn zeta.
    destruct (returncode _ =? 127); reflexivity.
  - rewrite (put_file_missing _ _ _ Hfs). reflexivity.
Qed.


(** X7: a trailing line feed on the command is optional: for a command
    that does not end in one, [_qubes] and [exec_command] do exactly the
    same with the command and with the command followed by a line feed. *)
Theorem trailing_newline_is_optional (s : State) (cmd : string)
    (in_data : option bytes) (shell : string) (sudoable : bool) :
  endswith cmd LF = false →
  _qubes cmd in_data shell s = _qubes (cmd +:+ LF) in_data shell s
  ∧ exec_command cmd in_data sudoable s =
    exec_command (cmd +:+ LF) in_data sudoable s.
Proof.
  intros Hnl.
  assert (Hframed : framed (cmd +:+ LF) = framed cmd).
  { unfold framed. rewrite Hnl.
    replace (endswith (cmd +:+ LF) LF) with true; [reflexivity|].
    symmetry. apply endswith_spec. exists cmd. reflexivity. }
  assert (Hq : ∀ d sh st, _qubes cmd d sh st = _qubes (cmd +:+ LF) d sh st).
  { intros d sh st. rewrite !_qubes_run. cbn zeta.
    unfold qubes_child. rewrite Hframed. reflexivity. }
  split; [apply Hq|]. rewrite !exec_command_run. apply Hq.
Qed.

(** X8: an empty command is not rejected: [_qubes] starts the child all
    the same, with the usual argument vector for the connection and the
    service, and sends it a single line feed, followed by the payload if
    there is one; it returns the exit status, output and error output with
    which the host answers exactly that. *)
Theorem qubes_empty_command (s : State) (in_data : option bytes)
    (shell : string) :
  ∃ inv,
    _qubes "" in_data shell s =
    (Ok (returncode (inv_result inv), Some (stdout (inv_result inv)),
         Some (stderr (inv_result inv))),
     ran inv s)
    ∧ inv_stdin inv = Some ([x0a] ++ default [] in_data)
    ∧ inv_args inv = qubes_argv (self s) shell
    ∧ last (inv_args inv) = Some (to_bytes shell)
    ∧ inv_stdout inv = PIPE
    ∧ inv_stderr inv = PIPE
    ∧ inv_result inv =
      run_child (spawned s) (qubes_argv (self s) shell)
        (Some ([x0a] ++ default [] in_data)).
Proof.
  rewrite _qubes_run. cbn zeta. eexists.
  do 3 (split; [reflexivity|]). split; [apply last_qubes_argv|].
  repeat split.
Qed.

(** X9: [exec_command] does not use [sudoable]: for either value the
    result and the final state are the same, and the one child is started
    for the service [qubes.VMShell]. *)
Theorem exec_command_ignores_sudoable (s : State) (cmd : string)
    (in_data : option bytes) (sudoable1 sudoable2 : bool) :
  exec_command cmd in_data sudoable1 s = exec_command cmd in_data sudoable2 s
  ∧ ∃ inv,
      spawned (exec_command cmd in_data sudoable1 s).2 = spawned s ++ [inv]
      ∧ last (inv_args inv) = Some (to_bytes "qubes.VMShell").
Proof.
  split; [reflexivity|].
  rewrite exec_command_run, _qubes_run. cbn zeta. eexists.
  split; [reflexivity|]. apply last_qubes_argv.
Qed.

End Further.

Lemma put_file_missing_local_file_witness :
  fs sample_state !! "/tmp/b"%string = None
  ∧ (put_file (H:=sample_host) "/tmp/b" "/home/user/b" sample_state).1
    = Raise (FileNotFoundError "/tmp/b")
  ∧ spawned (put_file (H:=sample_host) "/tmp/b" "/home/user/b" sample_state).2
    = spawned sample_state
  ∧ fs (put_file (H:=sample_host) "/tmp/b" "/home/user/b" sample_state).2
    = fs sample_state.
Proof.
  split; [vm_compute; reflexivity|].
  apply (put_file_missing_local_file (H:=sample_host) sample_state "/tmp/b"
           "/home/user/b").
  vm_compute. reflexivity.
Defined.

Lemma put_file_success_cases_witness :
  fs sample_state !! "/tmp/a"%string = Some sample_data
  ∧ ∃ inv1 rest,
      spawned (put_file (H:=sample_host) "/tmp/a" "/home/user/a"
                 sample_state).2
      = spawned sample_state ++ inv1 :: rest
      ∧ (length rest ≤ 1)%nat
      ∧ (inv_args inv1 = qubes_argv (self sample_state) "qubes.VMRootShell"
         ∧ inv_stdin inv1 =
           Some (to_bytes (put_cmd "/home/user/a") ++ sample_data)
         ∧ inv_result inv1 =
           run_child (Host:=sample_host) (spawned sample_state)
             (inv_args inv1) (inv_stdin inv1))
      ∧ ((returncode (inv_result inv1) = 127
          ∧ ∃ inv2,
              rest = [inv2]
              ∧ inv_args inv2 = qubes_argv (self sample_state) "qubes.VMShell"
              ∧ inv_stdin inv2 =
                Some (to_bytes (put_cmd "/home/user/a") ++ sample_data)
              ∧ inv_result inv2 =
                run_child (Host:=sample_host) (spawned sample_state ++ [inv1])
                  (inv_args inv2) (inv_stdin inv2))
         ∨ (returncode (inv_result inv1) ≠ 127 ∧ rest = []))
      ∧ ((put_file (H:=sample_host) "/tmp/a" "/home/user/a" sample_state).1
         = Ok tt
         ↔ (returncode (inv_result inv1) = 0
            ∨ (returncode (inv_result inv1) = 127
               ∧ ∃ inv2, rest = [inv2]
                         ∧ returncode (inv_result inv2) = 0))).
Proof.
  split; [vm_compute; reflexivity|].
  apply (put_file_success_cases (H:=sample_host) sample_state "/tmp/a"
           "/home/user/a" sample_data).
  vm_compute. reflexivity.
Defined.


Lemma trailing_newline_is_optional_witness :
  endswith "ls" LF = false
  ∧ _qubes (H:=sample_host) "ls" None "qubes.VMShell" sample_state
    = _qubes (H:=sample_host) ("ls" +:+ LF) None "qubes.VMShell" sample_state
  ∧ exec_command (H:=sample_host) "ls" None false sample_state
    = exec_command (H:=sample_host) ("ls" +:+ LF) None false sample_state.
Proof.
  split; [reflexivity|].
  apply (trailing_newline_is_optional (H:=sample_host) sample_state "ls" None
           "qubes.VMShell" false).
  reflexivity.
Defined.
